(** * Risk-decision engine of lipaworld-orca: a shallow embedding

    Sources embedded here:
    - [src/src/services/orcaService.ts]: [OrcaService.checkTransaction]
      (the provider response normaliser), [determineRiskLevel];
    - [src/unnamed/part_003] ([src/routes/pre.ts]): [performInternalChecks],
      [combineRiskAssessments], [checkTransactionLimits], the handler of
      [POST /transaction/check] and the [testConnection] it awaits first;
    - [src/unnamed/part_000] ([src/config/config.ts]): default limits.

    JavaScript numbers are modelled as [Z]: every score the code produces is
    one of the integer constants 0, 10, 25, 60, 75, 95, 100.  A single clock
    reading [now] stands for the calls to [Date.now()] of one evaluation, and
    [rnd] for [Math.random().toString(36).substr(2, 9)]. *)

From Stdlib Require Import String List ZArith Bool Lia.
Import ListNotations.
Open Scope Z_scope.
Set Warnings "-register-all".

(** ** JSON values as the code sees them after [axios] parsed a body *)
Module Js.

Inductive jsval : Type :=
| JUndef
| JNull
| JBool (b : bool)
| JNum (z : Z)
| JStr (s : string)
| JArr (l : list jsval)
| JObj (fs : list (string * jsval)).

(** JavaScript truthiness: [undefined], [null], [false], [0] and [""] are falsy. *)
Definition truthy (v : jsval) : bool :=
  match v with
  | JUndef | JNull => false
  | JBool b => b
  | JNum z => negb (z =? 0)
  | JStr s => negb (String.eqb s "")
  | JArr _ | JObj _ => true
  end.

(** [a || b] *)
Definition js_or (a b : jsval) : jsval := if truthy a then a else b.

(** Field of a parsed JSON object (keys of a parsed object are distinct). *)
Fixpoint lookup (k : string) (fs : list (string * jsval)) : jsval :=
  match fs with
  | [] => JUndef
  | (k', v) :: r => if String.eqb k k' then v else lookup k r
  end.

(** [v.k]: [None] is the [TypeError] thrown on [undefined] and [null].  None
    of the field names the code reads ([recommendedAction], [triggered],
    [description], [name], [id], [timestamp]) is found on a primitive or on
    an array, so these read [undefined]. *)
Definition get (v : jsval) (k : string) : option jsval :=
  match v with
  | JUndef | JNull => None
  | JObj fs => Some (lookup k fs)
  | _ => Some JUndef
  end.

(** [xs.map(f)] where [f] may throw. *)
Fixpoint map_throw (f : jsval -> option jsval) (xs : list jsval)
  : option (list jsval) :=
  match xs with
  | [] => Some []
  | x :: r =>
      match f x with
      | None => None
      | Some y =>
          match map_throw f r with
          | None => None
          | Some ys => Some (y :: ys)
          end
      end
  end.

End Js.
Import Js.

(** Decimal rendering of a number inside a template literal. *)
Definition digit (n : N) : string :=
  String (Ascii.ascii_of_N (48 + n)) EmptyString.

Fixpoint dec_N (fuel : nat) (n : N) : string :=
  match fuel with
  | O => EmptyString
  | S f =>
      if (n <? 10)%N then digit n
      else String.append (dec_N f (n / 10)) (digit (n mod 10))
  end.

Definition dec_Z (z : Z) : string :=
  match z with
  | Zneg p => String.append "-" (dec_N 64 (Npos p))
  | _ => dec_N 64 (Z.to_N z)
  end.

(** ** Decisions and levels *)

Inductive Decision := ALLOW | REVIEW | BLOCK.
Inductive RiskLevel := LOW | MEDIUM | HIGH.

Definition dec_str (d : Decision) : string :=
  match d with ALLOW => "ALLOW" | REVIEW => "REVIEW" | BLOCK => "BLOCK" end.

(** [OrcaService.determineRiskLevel] *)
Definition determineRiskLevel (riskScore : Z) : RiskLevel :=
  if 80 <=? riskScore then HIGH
  else if 50 <=? riskScore then MEDIUM
  else LOW.

(** ** Provider response normaliser: [OrcaService.checkTransaction] *)

(** [OrcaRiskResponse] as [checkTransaction] builds it. *)
Record OrcaRiskResponse := {
  status : string;
  riskScore : Z;
  riskLevel : RiskLevel;
  action : Decision;
  reasons : list jsval;
  recommendedActions : list jsval;
  checkId : jsval;
  timestamp : jsval
}.

(** The [switch (orcaData.recommendedAction)]: strict equality on strings. *)
Definition map_recommended_action (ra : jsval) : Decision * Z :=
  match ra with
  | JStr s =>
      if String.eqb s "ALLOW" then (ALLOW, 10)
      else if String.eqb s "REVIEW" then (REVIEW, 60)
      else if String.eqb s "BLOCK" then (BLOCK, 95)
      else (ALLOW, 0)
  | _ => (ALLOW, 0)
  end.

(** The callback of [orcaData.triggered.map]:
    [typeof rule === 'string' ? rule
       : rule.description || rule.name || 'Risk rule triggered']. *)
Definition extract_reason (rule : jsval) : option jsval :=
  match rule with
  | JStr _ => Some rule
  | _ =>
      match get rule "description" with
      | None => None
      | Some d =>
          if truthy d then Some d
          else
            match get rule "name" with
            | None => None
            | Some n => Some (js_or n (JStr "Risk rule triggered"))
            end
      end
  end.

(** [orcaData.triggered ? orcaData.triggered.map(...) : []]; only an array
    has a [map] method, so a truthy non-array throws. *)
Definition extract_reasons (triggered : jsval) : option (list jsval) :=
  if truthy triggered then
    match triggered with
    | JArr l => map_throw extract_reason l
    | _ => None
    end
  else Some [].

(** The body of the [try] block once [client.post] has resolved with
    [response.data = orcaData]; [None] when the block throws. *)
Definition normal_path (orcaData : jsval) (now : Z) (rnd : string)
  : option OrcaRiskResponse :=
  match get orcaData "recommendedAction" with
  | None => None
  | Some ra =>
      let '(act, score) := map_recommended_action ra in
      match get orcaData "triggered" with
      | None => None
      | Some trig =>
          match extract_reasons trig with
          | None => None
          | Some rs =>
              match get orcaData "id", get orcaData "timestamp" with
              | Some id, Some ts =>
                  Some {| status := "SUCCESS";
                          riskScore := score;
                          riskLevel := determineRiskLevel score;
                          action := act;
                          reasons := rs;
                          recommendedActions := [];
                          checkId := js_or id
                            (JStr (String.append "check_"
                                     (String.append (dec_Z now)
                                        (String.append "_" rnd))));
                          timestamp := js_or ts (JNum now) |}
              | _, _ => None
              end
          end
      end
  end.

(** The [catch] block: the safe default on Orca failure. *)
Definition fallback_response (now : Z) : OrcaRiskResponse :=
  {| status := "ERROR";
     riskScore := 0;
     riskLevel := LOW;
     action := ALLOW;
     reasons := [JStr "Orca service error - defaulting to allow"];
     recommendedActions := [];
     checkId := JStr (String.append "fallback_" (dec_Z now));
     timestamp := JNum now |}.

(** [checkTransaction]: [resp] is the outcome of
    [client.post('/v1/transaction', ...)], [None] when the promise rejects
    (network error, timeout of [config.orcaTimeout], non-2xx status).  A body
    that is not JSON reaches the code as the raw text ([JStr]). *)
Definition checkTransaction (resp : option jsval) (now : Z) (rnd : string)
  : OrcaRiskResponse :=
  match resp with
  | None => fallback_response now
  | Some orcaData =>
      match normal_path orcaData now rnd with
      | Some r => r
      | None => fallback_response now
      end
  end.

Example checkTransaction_review_ex :
  action (checkTransaction
            (Some (JObj [("recommendedAction"%string, JStr "REVIEW")])) 1700 "abc")
  = REVIEW.
Proof. reflexivity. Qed.

Example fallback_id_ex :
  checkId (fallback_response 1703251200) = JStr "fallback_1703251200".
Proof. reflexivity. Qed.

(** ** Configuration ([src/config/config.ts]) *)

Record Limits := {
  dailyTransactionLimit : Z;
  singleTransactionLimit : Z;
  hourlyTransactionCount : Z
}.

(** The defaults read when the environment sets nothing. *)
Definition default_limits : Limits :=
  {| dailyTransactionLimit := 100000;
     singleTransactionLimit := 50000;
     hourlyTransactionCount := 10 |}.

(** ** The routes of [src/routes/pre.ts] *)

(** The fields of [OrcaTransaction] the routes read. *)
Record OrcaTransaction := {
  transactionId : string;
  userId : string;
  amount : Z;
  currencyCode : string;
  provider : string
}.

(** The object returned by [performInternalChecks]. *)
Record InternalCheck := {
  ic_status : string;
  ic_decision : Decision;
  ic_riskScore : Z;
  ic_riskLevel : RiskLevel;
  ic_reasons : list string;
  ic_checkId : string;
  ic_timestamp : Z
}.

(** [performInternalChecks]: the three rules run in order, each pushing a
    reason and assigning the running [decision]. *)
Definition performInternalChecks (cfg : Limits) (transaction : OrcaTransaction)
  (now : Z) (rnd : string) : InternalCheck :=
  let '(reasons0, decision0) := ([] : list string, ALLOW) in
  (* Amount checks *)
  let '(reasons1, decision1) :=
    if amount transaction >? singleTransactionLimit cfg
    then (reasons0 ++ ["Amount exceeds single transaction limit"%string], BLOCK)
    else (reasons0, decision0) in
  (* Provider-specific checks *)
  let '(reasons2, decision2) :=
    if String.eqb (provider transaction) "voucher" && (amount transaction >? 10000)
    then (reasons1 ++ ["High-value voucher purchase requires review"%string], REVIEW)
    else (reasons1, decision1) in
  (* Currency-specific checks *)
  let '(reasons3, decision3) :=
    if String.eqb (currencyCode transaction) "USD" && (amount transaction >? 2000)
    then (reasons2 ++ ["High USD transaction requires review"%string], REVIEW)
    else (reasons2, decision2) in
  {| ic_status := "SUCCESS";
     ic_decision := decision3;
     ic_riskScore :=
       match decision3 with BLOCK => 100 | REVIEW => 75 | ALLOW => 25 end;
     ic_riskLevel :=
       match decision3 with BLOCK => HIGH | REVIEW => MEDIUM | ALLOW => LOW end;
     ic_reasons := reasons3;
     ic_checkId := String.append "internal_"
                     (String.append (dec_Z now) (String.append "_" rnd));
     ic_timestamp := now |}.

(** [['ALLOW', 'REVIEW', 'BLOCK']] *)
Definition actions : list string := ["ALLOW"; "REVIEW"; "BLOCK"]%string.

(** [Array.prototype.indexOf]: [-1] when absent. *)
Fixpoint indexOf (xs : list string) (x : string) : Z :=
  match xs with
  | [] => -1
  | y :: r =>
      if String.eqb x y then 0
      else let i := indexOf r x in if i =? -1 then -1 else i + 1
  end.

(** [xs[i]]: [undefined] ([None]) outside the array. *)
Definition js_index (xs : list string) (i : Z) : option string :=
  if i <? 0 then None else nth_error xs (Z.to_nat i).

(** The inline level of [combineRiskAssessments]:
    [maxRiskScore >= 80 ? 'HIGH' : maxRiskScore >= 50 ? 'MEDIUM' : 'LOW']. *)
Definition combine_inline_level (maxRiskScore : Z) : RiskLevel :=
  if maxRiskScore >=? 80 then HIGH
  else if maxRiskScore >=? 50 then MEDIUM
  else LOW.

(** The object returned by [combineRiskAssessments]; [fd_decision] is
    [actions[...]], which may be [undefined]. *)
Record FinalDecision := {
  fd_decision : option string;
  fd_riskScore : Z;
  fd_riskLevel : RiskLevel;
  fd_reasons : list jsval;
  fd_recommendedActions : list jsval;
  fd_checkId : jsval;
  fd_internalCheckId : string;
  fd_timestamp : Z
}.

(** [combineRiskAssessments(internal, orca)]: [internal] is read through its
    [decision] field, [orca] through its [action] field.  Both reason arrays
    are always present on these records, so [|| []] never fires. *)
Definition combineRiskAssessments (internal : InternalCheck)
  (orca : OrcaRiskResponse) (now : Z) : FinalDecision :=
  let internalActionIndex := indexOf actions (dec_str (ic_decision internal)) in
  let orcaActionIndex := indexOf actions (dec_str (action orca)) in
  let finalAction := js_index actions (Z.max internalActionIndex orcaActionIndex) in
  let maxRiskScore := Z.max (ic_riskScore internal) (riskScore orca) in
  {| fd_decision := finalAction;
     fd_riskScore := maxRiskScore;
     fd_riskLevel := combine_inline_level maxRiskScore;
     fd_reasons := map JStr (ic_reasons internal) ++ reasons orca;
     fd_recommendedActions := recommendedActions orca;
     fd_checkId := checkId orca;
     fd_internalCheckId := ic_checkId internal;
     fd_timestamp := now |}.

Example internal_small_ex :
  ic_decision (performInternalChecks default_limits
                 {| transactionId := "t"; userId := "u"; amount := 1000;
                    currencyCode := "KES"; provider := "hifi" |} 0 "r") = ALLOW.
Proof. reflexivity. Qed.

(** [checkTransactionLimits] over the in-memory [userTransactionCache]. *)
Record CachedTx := { tx_timestamp : Z; tx_amount : Z }.

Record LimitsCheckRequest := { lc_userId : string; lc_amount : Z }.

Record LimitsFigures := {
  dailyLimit : Z;
  dailyUsed : Z;
  dailyRemaining : Z;
  transactionLimit : Z;
  transactionCount : Z;
  transactionCountLimit : Z
}.

Record LimitsResult := {
  withinLimits : bool;
  limits : LimitsFigures;
  lr_decision : string;
  lr_timestamp : Z
}.

(** [cache] is [userTransactionCache.get]; [today] is midnight of the
    current day, in milliseconds, as [today.setHours(0, 0, 0, 0)] gives it. *)
Definition checkTransactionLimits (cfg : Limits)
  (cache : string -> option (list CachedTx)) (today now : Z)
  (limitsData : LimitsCheckRequest) : LimitsResult :=
  let userTransactions :=
    match cache (lc_userId limitsData) with Some l => l | None => [] end in
  let dailyTransactions :=
    filter (fun tx => today <=? tx_timestamp tx) userTransactions in
  let dailyAmount := fold_left (fun sum tx => sum + tx_amount tx) dailyTransactions 0 in
  let newDailyAmount := dailyAmount + lc_amount limitsData in
  let withinLimits :=
    (newDailyAmount <=? dailyTransactionLimit cfg) &&
    (Z.of_nat (length dailyTransactions) <? hourlyTransactionCount cfg) &&
    (lc_amount limitsData <=? singleTransactionLimit cfg) in
  {| withinLimits := withinLimits;
     limits := {| dailyLimit := dailyTransactionLimit cfg;
                  dailyUsed := dailyAmount;
                  dailyRemaining := dailyTransactionLimit cfg - dailyAmount;
                  transactionLimit := singleTransactionLimit cfg;
                  transactionCount := Z.of_nat (length dailyTransactions);
                  transactionCountLimit := hourlyTransactionCount cfg |};
     lr_decision := if withinLimits then "ALLOW" else "BLOCK";
     lr_timestamp := now |}.

(** ** The handler of [POST /transaction/check] *)

(** The requests the handler makes to the Orca API. *)
Inductive Call :=
| TestTransaction   (* testConnection: POST /v1/transaction, test payload *)
| TestUser          (* testConnection: POST /v1/user *)
| TestRules         (* testConnection: GET /v1/rules?limit=1 *)
| RiskCheck.        (* checkTransaction: POST /v1/transaction *)

(** The provider answers each request with a parsed body or rejects it. *)
Definition Provider := Call -> option jsval.

(** [OrcaService.testConnection]: the calls made, in order, and the result;
    every failure is caught, so it never throws. *)
Definition testConnection (p : Provider) : list Call * bool :=
  match p TestTransaction with
  | Some _ => ([TestTransaction], true)
  | None =>
      match p TestUser with
      | Some _ => ([TestTransaction; TestUser], true)
      | None =>
          match p TestRules with
          | Some _ => ([TestTransaction; TestUser; TestRules], true)
          | None => ([TestTransaction; TestUser; TestRules], false)
          end
      end
  end.

Inductive CheckData :=
| DataInternal (ic : InternalCheck)
| DataFinal (fd : FinalDecision).

Inductive CheckResponse :=
| InvalidRequest                 (* 400 INVALID_REQUEST *)
| CheckSuccess (data : CheckData).

(** The handler: the requests sent to the provider and the response. *)
Definition transaction_check (cfg : Limits) (p : Provider)
  (transactionData : OrcaTransaction) (now : Z) (rnd_internal rnd_check : string)
  : list Call * CheckResponse :=
  let '(calls, _) := testConnection p in
  if String.eqb (transactionId transactionData) ""
     || String.eqb (userId transactionData) ""
     || (amount transactionData =? 0)
  then (calls, InvalidRequest)
  else
    let internalCheck := performInternalChecks cfg transactionData now rnd_internal in
    match ic_decision internalCheck with
    | BLOCK => (calls, CheckSuccess (DataInternal internalCheck))
    | _ =>
        let orcaResult := checkTransaction (p RiskCheck) now rnd_check in
        (calls ++ [RiskCheck],
         CheckSuccess (DataFinal (combineRiskAssessments internalCheck orcaResult now)))
    end.

(** The decision carried by a successful response. *)
Definition response_decision (r : CheckResponse) : option string :=
  match r with
  | InvalidRequest => None
  | CheckSuccess (DataInternal ic) => Some (dec_str (ic_decision ic))
  | CheckSuccess (DataFinal fd) => fd_decision fd
  end.

(** ** Other operations of [OrcaService] and of the routes *)

(** [config.riskThresholds]. *)
Record RiskThresholds := { blockThreshold : Z; reviewThreshold : Z }.

Definition default_thresholds : RiskThresholds :=
  {| blockThreshold := 90; reviewThreshold := 70 |}.

(** [OrcaService.determineAction]. *)
Definition determineAction (th : RiskThresholds) (riskScore : Z) : Decision :=
  if riskScore >=? blockThreshold th then BLOCK
  else if riskScore >=? reviewThreshold th then REVIEW
  else ALLOW.

(** [performInternalChecks] of the other version of [src/routes/pre.ts]
    ([src/unnamed/part_004]): the amount and voucher rules only. *)
Definition performInternalChecks_v004 (cfg : Limits) (transaction : OrcaTransaction)
  (now : Z) (rnd : string) : InternalCheck :=
  let '(reasons0, decision0) := ([] : list string, ALLOW) in
  (* Amount checks *)
  let '(reasons1, decision1) :=
    if amount transaction >? singleTransactionLimit cfg
    then (reasons0 ++ ["Amount exceeds single transaction limit"%string], BLOCK)
    else (reasons0, decision0) in
  (* Provider-specific checks *)
  let '(reasons2, decision2) :=
    if String.eqb (provider transaction) "voucher" && (amount transaction >? 10000)
    then (reasons1 ++ ["High-value voucher purchase requires review"%string], REVIEW)
    else (reasons1, decision1) in
  {| ic_status := "SUCCESS";
     ic_decision := decision2;
     ic_riskScore :=
       match decision2 with BLOCK => 100 | REVIEW => 75 | ALLOW => 25 end;
     ic_riskLevel :=
       match decision2 with BLOCK => HIGH | REVIEW => MEDIUM | ALLOW => LOW end;
     ic_reasons := reasons2;
     ic_checkId := String.append "internal_"
                     (String.append (dec_Z now) (String.append "_" rnd));
     ic_timestamp := now |}.

(** Outcome of an axios call: rejected with [error.message], or resolved
    with [response.data]. *)
Inductive Reply :=
| Rejected (message : string)
| Resolved (data : jsval).

(** Outcome of an [async] method: its value, or the [Error] it throws. *)
Inductive Outcome (A : Type) :=
| Returns (a : A)
| Throws (message : string).
Arguments Returns {A} a.
Arguments Throws {A} message.

(** The message of the [TypeError] V8 raises on [v.k] for [null] or
    [undefined]. *)
Definition type_error_reading (v : jsval) (k : string) : string :=
  String.append "Cannot read properties of "
    (String.append (match v with JNull => "null" | _ => "undefined" end)
       (String.append " (reading '" (String.append k "')"))).

(** [{ ...fs, k: v }]: an existing key keeps its place and takes the new
    value, a new key goes last. *)
Fixpoint spread_set (fs : list (string * jsval)) (k : string) (v : jsval)
  : list (string * jsval) :=
  match fs with
  | [] => [(k, v)]
  | (k', v') :: r =>
      if String.eqb k k' then (k', v) :: r else (k', v') :: spread_set r k v
  end.

(** The body [reportTransaction] posts: [{ ...reportData, type: 'final_report' }]. *)
Definition report_payload (reportData : list (string * jsval)) : jsval :=
  JObj (spread_set reportData "type" (JStr "final_report")).

Record ReportResult := { rp_status : string; reportId : jsval }.

(** [OrcaService.reportTransaction]: [reply] is the outcome of posting
    [report_payload reportData]; every failure is rethrown. *)
Definition reportTransaction (reply : Reply) (now : Z) : Outcome ReportResult :=
  let fail msg := Throws (String.append "Orca reporting failed: " msg) in
  match reply with
  | Rejected msg => fail msg
  | Resolved d =>
      match get d "reportId" with
      | None => fail (type_error_reading d "reportId")
      | Some rid =>
          Returns {| rp_status := "SUCCESS";
                     reportId := js_or rid
                       (JStr (String.append "report_" (dec_Z now))) |}
      end
  end.

(** The parameters of [OrcaService.getRules]; [None] is [undefined]. *)
Record RulesParams := {
  rq_status : option string;
  rq_page : option Z;
  rq_limit : option Z
}.

Record RulesResult := {
  rules : jsval;
  total : jsval;
  rr_page : Z;
  rr_limit : Z
}.

(** [x || d] on an optional number. *)
Definition num_or (x : option Z) (d : Z) : Z :=
  match x with Some z => if z =? 0 then d else z | None => d end.

(** [OrcaService.getRules]: [resp] is the outcome of the GET on [/v1/rules];
    the [catch] block answers with no rules. *)
Definition getRules (params : RulesParams) (resp : option jsval) : RulesResult :=
  let on_error :=
    {| rules := JArr []; total := JNum 0;
       rr_page := num_or (rq_page params) 1;
       rr_limit := num_or (rq_limit params) 20 |} in
  match resp with
  | None => on_error
  | Some orcaData =>
      match get orcaData "rules", get orcaData "total" with
      | Some rs, Some t =>
          {| rules := js_or rs (JArr []); total := js_or t (JNum 0);
             rr_page := num_or (rq_page params) 1;
             rr_limit := num_or (rq_limit params) 20 |}
      | _, _ => on_error
      end
  end.

(** ** Vocabulary of the properties *)

(** Restrictiveness order ALLOW < REVIEW < BLOCK and its maximum. *)
Definition dec_rank (d : Decision) : Z :=
  match d with ALLOW => 0 | REVIEW => 1 | BLOCK => 2 end.

Definition dec_max (a b : Decision) : Decision :=
  if dec_rank a <=? dec_rank b then b else a.

(** [s] contains the text "unavailab" (unavailable, unavailability). *)
Definition mentions_unavailability (s : string) : Prop :=
  exists pre post, s = String.append pre (String.append "unavailab" post).

(** A verdict (decision, score, reasons), passed either as the local
    verdict or as the provider verdict of [combineRiskAssessments]. *)
Record Verdict := {
  v_decision : Decision;
  v_riskScore : Z;
  v_reasons : list string
}.

Definition as_internal (v : Verdict) : InternalCheck :=
  {| ic_status := "SUCCESS";
     ic_decision := v_decision v;
     ic_riskScore := v_riskScore v;
     ic_riskLevel := determineRiskLevel (v_riskScore v);
     ic_reasons := v_reasons v;
     ic_checkId := "internal";
     ic_timestamp := 0 |}.

Definition as_orca (v : Verdict) : OrcaRiskResponse :=
  {| status := "SUCCESS";
     riskScore := v_riskScore v;
     riskLevel := determineRiskLevel (v_riskScore v);
     action := v_decision v;
     reasons := map JStr (v_reasons v);
     recommendedActions := [];
     checkId := JStr "check";
     timestamp := JNum 0 |}.

Definition combine_verdicts (v1 v2 : Verdict) (now : Z) : FinalDecision :=
  combineRiskAssessments (as_internal v1) (as_orca v2) now.

(** Requests used at concrete inputs below. *)
Definition voucher_60000 : OrcaTransaction :=
  {| transactionId := "txn_1"; userId := "user_1"; amount := 60000;
     currencyCode := "KES"; provider := "voucher" |}.

Definition usd_60000 : OrcaTransaction :=
  {| transactionId := "txn_2"; userId := "user_2"; amount := 60000;
     currencyCode := "USD"; provider := "hifi" |}.

Definition kes_60000 : OrcaTransaction :=
  {| transactionId := "txn_3"; userId := "user_3"; amount := 60000;
     currencyCode := "KES"; provider := "kotanipay" |}.

(** A body that is not JSON, which axios hands over as text. *)
Definition html_body : jsval := JStr "<html>502 Bad Gateway</html>".

(** ** Shared lemmas *)

Lemma inline_level_determineRiskLevel (z : Z) :
  combine_inline_level z = determineRiskLevel z.
Proof.
  unfold combine_inline_level, determineRiskLevel.
  rewrite !Z.geb_leb. reflexivity.
Qed.

Lemma indexOf_actions (d : Decision) : indexOf actions (dec_str d) = dec_rank d.
Proof. destruct d; reflexivity. Qed.

Lemma combine_decision (ic : InternalCheck) (orca : OrcaRiskResponse) (now : Z) :
  fd_decision (combineRiskAssessments ic orca now)
  = Some (dec_str (dec_max (ic_decision ic) (action orca))).
Proof.
  unfold combineRiskAssessments. cbn [fd_decision].
  rewrite !indexOf_actions.
  destruct (ic_decision ic), (action orca); reflexivity.
Qed.

Lemma dec_max_comm (a b : Decision) : dec_max a b = dec_max b a.
Proof. destruct a, b; reflexivity. Qed.

Lemma dec_max_block_l (b : Decision) : dec_max BLOCK b = BLOCK.
Proof. destruct b; reflexivity. Qed.

(** ** C1: the fail-open path of [checkTransaction] *)

(** C1 (as stated): every provider failure, timeout or unparseable body
    yields ALLOW, score 0, exactly one reason mentioning unavailability and
    a fallback check id.  It fails on a body that is not JSON: axios hands
    it over as text, the [try] block does not throw, and the response is
    the normal one with no reason at all. *)
Lemma C1_unparseable_body_counterexample :
  ~ (let r := checkTransaction (Some html_body) 0 "r" in
     action r = ALLOW /\ riskScore r = 0 /\
     (exists s, reasons r = [JStr s] /\ mentions_unavailability s) /\
     checkId r = JStr (String.append "fallback_" (dec_Z 0))).
Proof.
  cbn. intros [_ [_ [[s [Hs _]] _]]]. discriminate Hs.
Qed.

(** C1 (amended): when the provider call rejects (transport failure,
    timeout, error status) or processing its body throws, [checkTransaction]
    returns status ERROR, ALLOW, score 0, level LOW, the single reason
    "Orca service error - defaulting to allow" and the check id
    fallback_<now>; a body that is not JSON text instead takes the normal
    path: status SUCCESS, ALLOW, score 0 and no reasons. *)
Theorem checkTransaction_fail_open (resp : option jsval) (now : Z) (rnd : string) :
  ((resp = None \/ (exists d, resp = Some d /\ normal_path d now rnd = None)) ->
   let r := checkTransaction resp now rnd in
   status r = "ERROR"%string /\ action r = ALLOW /\ riskScore r = 0 /\
   riskLevel r = LOW /\
   reasons r = [JStr "Orca service error - defaulting to allow"] /\
   checkId r = JStr (String.append "fallback_" (dec_Z now))) /\
  (forall s : string,
   let r := checkTransaction (Some (JStr s)) now rnd in
   status r = "SUCCESS"%string /\ action r = ALLOW /\ riskScore r = 0 /\
   reasons r = []).
Proof.
  split.
  - intros [-> | [d [-> Hd]]]; cbn zeta.
    + repeat split.
    + unfold checkTransaction. rewrite Hd. repeat split.
  - intros s. cbn. repeat split.
Qed.

Lemma checkTransaction_fail_open_witness :
  let r := checkTransaction None 1703251200 "abc" in
  action r = ALLOW /\ riskScore r = 0 /\
  reasons r = [JStr "Orca service error - defaulting to allow"] /\
  checkId r = JStr "fallback_1703251200".
Proof.
  destruct (proj1 (checkTransaction_fail_open None 1703251200 "abc")
              (or_introl eq_refl)) as [_ [Ha [Hs [_ [Hr Hc]]]]].
  split; [exact Ha | split; [exact Hs | split; [exact Hr | exact Hc]]].
Defined.

(** ** C2: an amount above the ceiling is not always blocked *)

(** C2 (code_bug): with the default ceiling of 50000, a voucher purchase of
    60000 first gets BLOCK from the amount rule, then the voucher rule
    assigns REVIEW over it. *)
Theorem performInternalChecks_voucher_over_ceiling :
  amount voucher_60000 > singleTransactionLimit default_limits /\
  ic_decision (performInternalChecks default_limits voucher_60000 0 "r") = REVIEW /\
  ic_reasons (performInternalChecks default_limits voucher_60000 0 "r")
  = ["Amount exceeds single transaction limit";
     "High-value voucher purchase requires review"]%string.
Proof. split; [cbn; lia | split; reflexivity]. Qed.

(** ** C3: the running decision is downgraded by a later rule *)

(** C3 (code_bug): for a USD transaction of 60000 the amount rule sets the
    running decision to BLOCK and the currency rule then assigns REVIEW, so
    the returned decision is less restrictive than an earlier one. *)
Theorem performInternalChecks_usd_downgrade :
  (amount usd_60000 >? singleTransactionLimit default_limits) = true /\
  ic_decision (performInternalChecks default_limits usd_60000 0 "r") = REVIEW /\
  dec_rank (ic_decision (performInternalChecks default_limits usd_60000 0 "r"))
  < dec_rank BLOCK.
Proof. split; [reflexivity | split; [reflexivity | cbn; lia]]. Qed.

(** ** C4: the provider's REVIEW is scored 60 *)

(** C4 (as stated): raw action "REVIEW" gives REVIEW with score 75.  The
    code scores it 60. *)
Lemma C4_review_score_counterexample :
  ~ (let r := checkTransaction
                (Some (JObj [("recommendedAction"%string, JStr "REVIEW")])) 0 "r" in
     action r = REVIEW /\ riskScore r = 75).
Proof. cbn. intros [_ H]. discriminate H. Qed.

(** C4 (amended): a provider body whose [recommendedAction] is exactly
    "REVIEW", and whose [triggered] list is processed without throwing,
    is normalised to action REVIEW, score 60 and level MEDIUM. *)
Theorem checkTransaction_review_score (fs : list (string * jsval)) (now : Z)
  (rnd : string)
  (Hra : lookup "recommendedAction" fs = JStr "REVIEW")
  (Htrig : extract_reasons (lookup "triggered" fs) <> None) :
  let r := checkTransaction (Some (JObj fs)) now rnd in
  action r = REVIEW /\ riskScore r = 60 /\ riskLevel r = MEDIUM.
Proof.
  unfold checkTransaction, normal_path. cbn [get]. rewrite Hra. cbn.
  destruct (extract_reasons (lookup "triggered" fs)) as [rs|] eqn:E.
  - cbn. repeat split.
  - contradiction.
Qed.

Lemma checkTransaction_review_score_witness :
  lookup "recommendedAction" [("recommendedAction"%string, JStr "REVIEW")]
  = JStr "REVIEW" /\
  extract_reasons (lookup "triggered" [("recommendedAction"%string, JStr "REVIEW")])
  <> None /\
  let r := checkTransaction
             (Some (JObj [("recommendedAction"%string, JStr "REVIEW")])) 0 "r" in
  action r = REVIEW /\ riskScore r = 60 /\ riskLevel r = MEDIUM.
Proof.
  split; [reflexivity | split; [cbn; discriminate |]].
  apply checkTransaction_review_score; [reflexivity | cbn; discriminate].
Defined.

(** ** C5: the Decision Combiner *)

(** C5: [combineRiskAssessments] returns the maximum decision, the maximum
    score, the level derived from that score, and the local reasons followed
    by the provider reasons, unchanged. *)
Theorem combineRiskAssessments_spec (ic : InternalCheck) (orca : OrcaRiskResponse)
  (now : Z) :
  let fd := combineRiskAssessments ic orca now in
  fd_decision fd = Some (dec_str (dec_max (ic_decision ic) (action orca))) /\
  fd_riskScore fd = Z.max (ic_riskScore ic) (riskScore orca) /\
  fd_riskLevel fd = determineRiskLevel (fd_riskScore fd) /\
  fd_reasons fd = map JStr (ic_reasons ic) ++ reasons orca.
Proof.
  cbn zeta. split; [apply combine_decision |].
  split; [reflexivity |].
  split; [apply inline_level_determineRiskLevel | reflexivity].
Qed.

(** ** C6: symmetry in decision and score, not in reasons *)

(** C6: swapping the two verdicts leaves decision and score unchanged, but
    for two distinct non-empty reason lists it changes the combined list. *)
Theorem combine_verdicts_swap :
  (forall (v1 v2 : Verdict) (now : Z),
     fd_decision (combine_verdicts v1 v2 now) = fd_decision (combine_verdicts v2 v1 now) /\
     fd_riskScore (combine_verdicts v1 v2 now) = fd_riskScore (combine_verdicts v2 v1 now)) /\
  (exists v1 v2 : Verdict,
     v_reasons v1 <> [] /\ v_reasons v2 <> [] /\ v_reasons v1 <> v_reasons v2 /\
     fd_reasons (combine_verdicts v1 v2 0) <> fd_reasons (combine_verdicts v2 v1 0)).
Proof.
  split.
  - intros v1 v2 now. unfold combine_verdicts.
    rewrite !combine_decision. cbn.
    split; [rewrite dec_max_comm; reflexivity | apply Z.max_comm].
  - exists {| v_decision := ALLOW; v_riskScore := 25; v_reasons := ["local"%string] |},
         {| v_decision := REVIEW; v_riskScore := 60; v_reasons := ["provider"%string] |}.
    cbn. repeat split; discriminate.
Qed.

(** ** C7: short-circuit on a local BLOCK *)

(** C7 (as stated): on a local BLOCK the handler returns without querying
    the provider.  It fails: before any evaluation the handler awaits
    [testConnection], which POSTs a test transaction to the provider. *)
Lemma C7_provider_queried_counterexample :
  ic_decision (performInternalChecks default_limits kes_60000 0 "a") = BLOCK /\
  fst (transaction_check default_limits (fun _ => None) kes_60000 0 "a" "b")
  <> [].
Proof. split; [reflexivity | cbn; discriminate]. Qed.

(** C7 (amended): for a valid request on which [performInternalChecks]
    yields BLOCK, the handler never issues the risk check
    ([checkTransaction]); the only provider requests are those of
    [testConnection]; the returned decision is BLOCK, which is the decision
    [combineRiskAssessments] gives with any provider verdict. *)
Theorem transaction_check_block_short_circuit (cfg : Limits) (p : Provider)
  (req : OrcaTransaction) (now : Z) (r1 r2 : string)
  (Hid : transactionId req <> ""%string) (Huser : userId req <> ""%string)
  (Hamt : amount req <> 0)
  (Hblock : ic_decision (performInternalChecks cfg req now r1) = BLOCK) :
  let res := transaction_check cfg p req now r1 r2 in
  ~ In RiskCheck (fst res) /\
  fst res = fst (testConnection p) /\
  response_decision (snd res) = Some "BLOCK"%string /\
  (forall (orca : OrcaRiskResponse) (now' : Z),
     fd_decision (combineRiskAssessments (performInternalChecks cfg req now r1) orca now')
     = Some "BLOCK"%string).
Proof.
  cbn zeta. unfold transaction_check.
  apply String.eqb_neq in Hid. apply String.eqb_neq in Huser.
  apply Z.eqb_neq in Hamt.
  rewrite Hid, Huser, Hamt. cbn [orb].
  assert (Hnt : ~ In RiskCheck (fst (testConnection p))).
  { unfold testConnection.
    destruct (p TestTransaction); [cbn; intuition discriminate |].
    destruct (p TestUser); [cbn; intuition discriminate |].
    destruct (p TestRules); cbn; intuition discriminate. }
  destruct (testConnection p) as [calls ok] eqn:Ht. cbn [fst] in Hnt.
  rewrite Hblock. cbn [fst snd response_decision].
  split; [exact Hnt |]. split; [reflexivity |].
  split; [rewrite Hblock; reflexivity |].
  intros orca now'. rewrite combine_decision, Hblock, dec_max_block_l.
  reflexivity.
Qed.

Lemma transaction_check_block_short_circuit_witness :
  let res := transaction_check default_limits (fun _ => None) kes_60000 0 "a" "b" in
  ~ In RiskCheck (fst res) /\
  fst res = fst (testConnection (fun _ => None)) /\
  response_decision (snd res) = Some "BLOCK"%string /\
  (forall (orca : OrcaRiskResponse) (now' : Z),
     fd_decision (combineRiskAssessments
                    (performInternalChecks default_limits kes_60000 0 "a") orca now')
     = Some "BLOCK"%string).
Proof.
  apply (transaction_check_block_short_circuit default_limits (fun _ => None)
           kes_60000 0 "a" "b");
    [cbn; discriminate | cbn; discriminate | cbn; discriminate | reflexivity].
Defined.

(** ** C8: the limits check is binary *)

(** C8: [checkTransactionLimits] answers "ALLOW" exactly when [withinLimits]
    holds and "BLOCK" exactly when it does not; no other decision. *)
Theorem checkTransactionLimits_binary (cfg : Limits)
  (cache : string -> option (list CachedTx)) (today now : Z)
  (req : LimitsCheckRequest) :
  let r := checkTransactionLimits cfg cache today now req in
  (lr_decision r = "ALLOW"%string <-> withinLimits r = true) /\
  (lr_decision r = "BLOCK"%string <-> withinLimits r = false) /\
  (lr_decision r = "ALLOW"%string \/ lr_decision r = "BLOCK"%string).
Proof.
  cbn zeta. unfold checkTransactionLimits. cbn [lr_decision withinLimits].
  match goal with |- context [if ?w then _ else _] => destruct w end;
    cbn; intuition discriminate.
Qed.

(** ** C9: one score-to-level mapping *)

(** C9: the inline level of [combineRiskAssessments] and
    [determineRiskLevel] agree on every score. *)
Theorem combine_level_eq_determineRiskLevel (riskScore : Z) :
  combine_inline_level riskScore = determineRiskLevel riskScore.
Proof.
  unfold combine_inline_level, determineRiskLevel.
  rewrite (Z.geb_leb riskScore 80), (Z.geb_leb riskScore 50).
  reflexivity.
Qed.

(** ** C10: reason extraction from a structured rule *)

(** C10: for a rule object whose [description] is absent or falsy, the
    reason is its [name] when truthy and "Risk rule triggered" otherwise; it
    is never the empty string. *)
Theorem extract_reason_falsy_description (fs : list (string * jsval))
  (Hdesc : truthy (lookup "description" fs) = false) :
  extract_reason (JObj fs)
  = Some (if truthy (lookup "name" fs) then lookup "name" fs
          else JStr "Risk rule triggered") /\
  (exists v, extract_reason (JObj fs) = Some v /\ truthy v = true /\
             v <> JStr "").
Proof.
  unfold extract_reason. cbn [get]. rewrite Hdesc.
  unfold js_or.
  destruct (truthy (lookup "name" fs)) eqn:Hn.
  - split; [reflexivity |].
    exists (lookup "name" fs). split; [reflexivity | split; [exact Hn |]].
    intros He. rewrite He in Hn. discriminate Hn.
  - split; [reflexivity |].
    exists (JStr "Risk rule triggered"). repeat split. discriminate.
Qed.

Lemma extract_reason_falsy_description_witness :
  truthy (lookup "description" [("description"%string, JStr ""); ("name"%string, JStr "")])
  = false /\
  extract_reason (JObj [("description"%string, JStr ""); ("name"%string, JStr "")])
  = Some (JStr "Risk rule triggered").
Proof.
  split; [reflexivity |].
  exact (proj1 (extract_reason_falsy_description
                  [("description"%string, JStr ""); ("name"%string, JStr "")]
                  eq_refl)).
Defined.

(** * Further properties of the code *)

(** [determineAction] is monotone: a higher score never gives a less
    restrictive action, whatever the thresholds. *)
Theorem determineAction_monotone (th : RiskThresholds) (s1 s2 : Z) (Hle : s1 <= s2) :
  dec_rank (determineAction th s1) <= dec_rank (determineAction th s2).
Proof.
  unfold determineAction.
  destruct (s1 >=? blockThreshold th) eqn:B1; destruct (s2 >=? blockThreshold th) eqn:B2;
  destruct (s1 >=? reviewThreshold th) eqn:R1; destruct (s2 >=? reviewThreshold th) eqn:R2;
  cbn; rewrite ?Z.geb_le, ?Z.geb_leb, ?Z.leb_le, ?Z.leb_gt in *; try lia.
Qed.

Lemma determineAction_monotone_witness :
  85 <= 95 /\ dec_rank (determineAction default_thresholds 85)
              <= dec_rank (determineAction default_thresholds 95).
Proof. split; [lia | apply determineAction_monotone; lia]. Defined.

(** With the default thresholds (block 90, review 70) [determineAction]
    blocks from 90, reviews from 70 up to 89, and allows below 70. *)
Theorem determineAction_default (s : Z) :
  (determineAction default_thresholds s = BLOCK <-> 90 <= s) /\
  (determineAction default_thresholds s = REVIEW <-> 70 <= s < 90) /\
  (determineAction default_thresholds s = ALLOW <-> s < 70).
Proof.
  unfold determineAction; cbn [blockThreshold reviewThreshold default_thresholds].
  destruct (s >=? 90) eqn:B; destruct (s >=? 70) eqn:R;
    rewrite ?Z.geb_leb, ?Z.leb_le, ?Z.leb_gt in *;
    repeat split; intros; try discriminate; try lia; reflexivity.
Qed.

(** Every verdict [checkTransaction] returns is well formed: its score is
    one of 0, 10, 60, 95 and its level is [determineRiskLevel] of it. *)
Theorem checkTransaction_well_formed (resp : option jsval) (now : Z) (rnd : string) :
  let r := checkTransaction resp now rnd in
  (riskScore r = 0 \/ riskScore r = 10 \/ riskScore r = 60 \/ riskScore r = 95) /\
  riskLevel r = determineRiskLevel (riskScore r).
Proof.
  cbn zeta. unfold checkTransaction.
  destruct resp as [d|]; [|cbn; auto].
  destruct (normal_path d now rnd) as [r|] eqn:E; [|cbn; auto].
  unfold normal_path in E.
  destruct (get d "recommendedAction") as [ra|]; [|discriminate].
  destruct (map_recommended_action ra) as [act sc] eqn:Hm.
  destruct (get d "triggered"); [|discriminate].
  destruct (extract_reasons j); [|discriminate].
  destruct (get d "id"), (get d "timestamp"); try discriminate.
  injection E as <-. cbn. split; [|reflexivity].
  unfold map_recommended_action in Hm.
  destruct ra; try (injection Hm as _ <-; auto).
  repeat match type of Hm with context [if ?c then _ else _] => destruct c end;
    injection Hm as _ <-; auto.
Qed.

(** [checkTransaction] blocks only on an explicit provider verdict: its
    action is BLOCK only when the call succeeded and [recommendedAction] is
    exactly the string "BLOCK"; failures and unknown actions never block. *)
Theorem checkTransaction_block_only_explicit (resp : option jsval) (now : Z)
  (rnd : string) (Hb : action (checkTransaction resp now rnd) = BLOCK) :
  exists d, resp = Some d /\ get d "recommendedAction" = Some (JStr "BLOCK").
Proof.
  unfold checkTransaction in Hb.
  destruct resp as [d|]; [|discriminate].
  destruct (normal_path d now rnd) as [r|] eqn:E; [|discriminate].
  exists d. split; [reflexivity|].
  unfold normal_path in E.
  destruct (get d "recommendedAction") as [ra|]; [|discriminate].
  destruct (map_recommended_action ra) as [act sc] eqn:Hm.
  destruct (get d "triggered"); [|discriminate].
  destruct (extract_reasons j); [|discriminate].
  destruct (get d "id"), (get d "timestamp"); try discriminate.
  injection E as <-. cbn in Hb. subst act.
  unfold map_recommended_action in Hm.
  destruct ra; try discriminate.
  destruct (String.eqb s "ALLOW") eqn:E1; [discriminate|].
  destruct (String.eqb s "REVIEW") eqn:E2; [discriminate|].
  destruct (String.eqb s "BLOCK") eqn:E3; [|discriminate].
  apply String.eqb_eq in E3. subst s. reflexivity.
Qed.

Lemma checkTransaction_block_only_explicit_witness :
  action (checkTransaction (Some (JObj [("recommendedAction"%string, JStr "BLOCK")]))
            0 "r") = BLOCK /\
  exists d, Some (JObj [("recommendedAction"%string, JStr "BLOCK")]) = Some d /\
            get d "recommendedAction" = Some (JStr "BLOCK").
Proof.
  split; [reflexivity|].
  apply (checkTransaction_block_only_explicit _ 0 "r"). reflexivity.
Defined.

(** Of the provider's body [checkTransaction] reads only
    [recommendedAction], [triggered], [id] and [timestamp]: two bodies that
    agree on these give the same verdict (a provider [riskScore] or
    [riskLevel] is ignored). *)
Theorem checkTransaction_reads_four_fields (fs1 fs2 : list (string * jsval))
  (now : Z) (rnd : string)
  (Hra : lookup "recommendedAction" fs1 = lookup "recommendedAction" fs2)
  (Htr : lookup "triggered" fs1 = lookup "triggered" fs2)
  (Hid : lookup "id" fs1 = lookup "id" fs2)
  (Hts : lookup "timestamp" fs1 = lookup "timestamp" fs2) :
  checkTransaction (Some (JObj fs1)) now rnd = checkTransaction (Some (JObj fs2)) now rnd.
Proof.
  unfold checkTransaction, normal_path. cbn [get].
  rewrite Hra, Htr, Hid, Hts. reflexivity.
Qed.

Lemma checkTransaction_reads_four_fields_witness :
  checkTransaction (Some (JObj [("recommendedAction"%string, JStr "REVIEW")])) 0 "r"
  = checkTransaction (Some (JObj [("recommendedAction"%string, JStr "REVIEW");
                                  ("riskScore"%string, JNum 99);
                                  ("riskLevel"%string, JStr "HIGH")])) 0 "r".
Proof. apply checkTransaction_reads_four_fields; reflexivity. Defined.

(** A [triggered] array of plain strings becomes the reasons verbatim, in
    order. *)
Theorem extract_reasons_strings (l : list string) :
  extract_reasons (JArr (map JStr l)) = Some (map JStr l).
Proof.
  unfold extract_reasons. cbn [truthy].
  induction l as [|s l IH]; [reflexivity|].
  cbn [map map_throw extract_reason]. rewrite IH. reflexivity.
Qed.

Lemma map_throw_null (l : list jsval) (Hin : In JNull l \/ In JUndef l) :
  map_throw extract_reason l = None.
Proof.
  induction l as [|x l IH]; [destruct Hin as [[]|[]]|].
  cbn [map_throw].
  destruct Hin as [[->|H]|[->|H]]; try reflexivity;
    destruct (extract_reason x); try reflexivity; rewrite IH; auto.
Qed.

(** A malformed [triggered] field makes the whole check fall back to the
    safe default: a truthy value that is not an array, or an array holding
    [null] (or [undefined]). *)
Theorem checkTransaction_bad_triggered (fs : list (string * jsval)) (now : Z)
  (rnd : string)
  (Hbad : (truthy (lookup "triggered" fs) = true /\
           forall l, lookup "triggered" fs <> JArr l) \/
          (exists l, lookup "triggered" fs = JArr l /\ (In JNull l \/ In JUndef l))) :
  checkTransaction (Some (JObj fs)) now rnd = fallback_response now.
Proof.
  unfold checkTransaction, normal_path. cbn [get].
  destruct (map_recommended_action (lookup "recommendedAction" fs)) as [act sc].
  assert (E : extract_reasons (lookup "triggered" fs) = None).
  { destruct Hbad as [[Ht Hn] | [l [Hl Hin]]].
    - unfold extract_reasons. rewrite Ht.
      destruct (lookup "triggered" fs); try reflexivity.
      exfalso. apply (Hn l). reflexivity.
    - rewrite Hl. cbn. apply map_throw_null. exact Hin. }
  rewrite E. reflexivity.
Qed.

Lemma checkTransaction_bad_triggered_witness :
  checkTransaction (Some (JObj [("recommendedAction"%string, JStr "BLOCK");
                                ("triggered"%string, JArr [JStr "r1"; JNull])])) 0 "r"
  = fallback_response 0.
Proof.
  apply checkTransaction_bad_triggered. right.
  exists [JStr "r1"; JNull]. split; [reflexivity | left; cbn; auto].
Defined.

(** The local verdict is well formed: its score is 25, 75 or 100 and its
    level is [determineRiskLevel] of that score. *)
Theorem performInternalChecks_well_formed (cfg : Limits) (t : OrcaTransaction)
  (now : Z) (rnd : string) :
  let ic := performInternalChecks cfg t now rnd in
  (ic_riskScore ic = 25 \/ ic_riskScore ic = 75 \/ ic_riskScore ic = 100) /\
  ic_riskLevel ic = determineRiskLevel (ic_riskScore ic).
Proof.
  cbn zeta. unfold performInternalChecks.
  destruct (amount t >? singleTransactionLimit cfg);
  destruct (String.eqb (provider t) "voucher" && (amount t >? 10000));
  destruct (String.eqb (currencyCode t) "USD" && (amount t >? 2000));
  cbn; auto.
Qed.

(** The local decision is that of the last rule that fires (the currency
    rule, then the voucher rule, then the amount rule), ALLOW when none
    does; the reasons are those of the rules that fire, in rule order. *)
Theorem performInternalChecks_last_rule_wins (cfg : Limits) (t : OrcaTransaction)
  (now : Z) (rnd : string) :
  let amt := amount t >? singleTransactionLimit cfg in
  let vch := String.eqb (provider t) "voucher" && (amount t >? 10000) in
  let usd := String.eqb (currencyCode t) "USD" && (amount t >? 2000) in
  let ic := performInternalChecks cfg t now rnd in
  ic_decision ic = (if usd then REVIEW else if vch then REVIEW
                    else if amt then BLOCK else ALLOW) /\
  ic_reasons ic =
    (if amt then ["Amount exceeds single transaction limit"%string] else []) ++
    (if vch then ["High-value voucher purchase requires review"%string] else []) ++
    (if usd then ["High USD transaction requires review"%string] else []).
Proof.
  cbn zeta. unfold performInternalChecks.
  destruct (amount t >? singleTransactionLimit cfg);
  destruct (String.eqb (provider t) "voucher" && (amount t >? 10000));
  destruct (String.eqb (currencyCode t) "USD" && (amount t >? 2000));
  split; reflexivity.
Qed.

(** The local decision is ALLOW exactly when the local verdict has no
    reason. *)
Theorem performInternalChecks_allow_iff_no_reason (cfg : Limits) (t : OrcaTransaction)
  (now : Z) (rnd : string) :
  let ic := performInternalChecks cfg t now rnd in
  ic_decision ic = ALLOW <-> ic_reasons ic = [].
Proof.
  cbn zeta. unfold performInternalChecks.
  destruct (amount t >? singleTransactionLimit cfg);
  destruct (String.eqb (provider t) "voucher" && (amount t >? 10000));
  destruct (String.eqb (currencyCode t) "USD" && (amount t >? 2000));
  cbn; split; intros H; try discriminate; reflexivity.
Qed.

(** The two versions of [src/routes/pre.ts] compute the same local verdict
    on every transaction not in USD. *)
Theorem performInternalChecks_versions_agree (cfg : Limits) (t : OrcaTransaction)
  (now : Z) (rnd : string) (Hcur : currencyCode t <> "USD"%string) :
  performInternalChecks_v004 cfg t now rnd = performInternalChecks cfg t now rnd.
Proof.
  apply String.eqb_neq in Hcur.
  unfold performInternalChecks, performInternalChecks_v004. rewrite Hcur. cbn [andb].
  destruct (amount t >? singleTransactionLimit cfg);
  destruct (String.eqb (provider t) "voucher" && (amount t >? 10000));
  reflexivity.
Qed.

Lemma performInternalChecks_versions_agree_witness :
  performInternalChecks_v004 default_limits voucher_60000 0 "r"
  = performInternalChecks default_limits voucher_60000 0 "r".
Proof. apply performInternalChecks_versions_agree. cbn. discriminate. Defined.

(** A request the handler accepts: ids non-empty and amount non-zero. *)
Definition valid_request (t : OrcaTransaction) : Prop :=
  transactionId t <> ""%string /\ userId t <> ""%string /\ amount t <> 0.

Lemma testConnection_no_risk_check (p : Provider) :
  ~ In RiskCheck (fst (testConnection p)).
Proof.
  unfold testConnection.
  destruct (p TestTransaction); [cbn; intuition discriminate |].
  destruct (p TestUser); [cbn; intuition discriminate |].
  destruct (p TestRules); cbn; intuition discriminate.
Qed.

Lemma transaction_check_valid (cfg : Limits) (p : Provider) (t : OrcaTransaction)
  (now : Z) (r1 r2 : string) (Hv : valid_request t) :
  transaction_check cfg p t now r1 r2 =
  let ic := performInternalChecks cfg t now r1 in
  match ic_decision ic with
  | BLOCK => (fst (testConnection p), CheckSuccess (DataInternal ic))
  | _ => (fst (testConnection p) ++ [RiskCheck],
          CheckSuccess (DataFinal (combineRiskAssessments ic
                                     (checkTransaction (p RiskCheck) now r2) now)))
  end.
Proof.
  destruct Hv as [Hid [Hu Ha]].
  apply String.eqb_neq in Hid. apply String.eqb_neq in Hu. apply Z.eqb_neq in Ha.
  unfold transaction_check. destruct (testConnection p) as [calls ok].
  rewrite Hid, Hu, Ha. reflexivity.
Qed.

(** End to end, the handler answers every valid request with one of the
    three decisions, never less restrictive than the local decision. *)
Theorem transaction_check_at_least_local (cfg : Limits) (p : Provider)
  (t : OrcaTransaction) (now : Z) (r1 r2 : string) (Hv : valid_request t) :
  exists d,
    response_decision (snd (transaction_check cfg p t now r1 r2)) = Some (dec_str d) /\
    dec_rank (ic_decision (performInternalChecks cfg t now r1)) <= dec_rank d.
Proof.
  rewrite (transaction_check_valid cfg p t now r1 r2 Hv). cbn zeta.
  destruct (ic_decision (performInternalChecks cfg t now r1)) eqn:Hd;
    cbn [snd response_decision];
    try (exists BLOCK; rewrite Hd; split; [reflexivity | cbn; lia]);
    rewrite combine_decision, Hd;
    eexists; (split; [reflexivity|]);
    destruct (action (checkTransaction (p RiskCheck) now r2)); cbn; lia.
Qed.

Lemma transaction_check_at_least_local_witness :
  exists d,
    response_decision (snd (transaction_check default_limits (fun _ => None)
                              usd_60000 0 "a" "b")) = Some (dec_str d) /\
    dec_rank (ic_decision (performInternalChecks default_limits usd_60000 0 "a"))
    <= dec_rank d.
Proof.
  apply transaction_check_at_least_local.
  split; [cbn; discriminate | split; [cbn; discriminate | cbn; discriminate]].
Defined.

(** When the provider's risk check fails, a valid request gets exactly the
    local decision and the local score; the final reasons are the local
    ones followed by the fallback reason (or the local reasons alone when
    the local decision is BLOCK). *)
Theorem transaction_check_provider_down (cfg : Limits) (p : Provider)
  (t : OrcaTransaction) (now : Z) (r1 r2 : string) (Hv : valid_request t)
  (Hdown : p RiskCheck = None) :
  let ic := performInternalChecks cfg t now r1 in
  response_decision (snd (transaction_check cfg p t now r1 r2))
  = Some (dec_str (ic_decision ic)) /\
  match snd (transaction_check cfg p t now r1 r2) with
  | CheckSuccess (DataFinal fd) =>
      fd_riskScore fd = ic_riskScore ic /\
      fd_reasons fd = map JStr (ic_reasons ic)
                      ++ [JStr "Orca service error - defaulting to allow"]
  | CheckSuccess (DataInternal ic') => ic' = ic
  | InvalidRequest => False
  end.
Proof.
  cbn zeta. rewrite (transaction_check_valid cfg p t now r1 r2 Hv). cbn zeta.
  rewrite Hdown.
  assert (Hs : 0 <= ic_riskScore (performInternalChecks cfg t now r1)).
  { unfold performInternalChecks.
    destruct (amount t >? singleTransactionLimit cfg);
    destruct (String.eqb (provider t) "voucher" && (amount t >? 10000));
    destruct (String.eqb (currencyCode t) "USD" && (amount t >? 2000));
    cbn; lia. }
  destruct (ic_decision (performInternalChecks cfg t now r1)) eqn:Hd;
    cbn [snd response_decision];
    try (rewrite Hd; split; reflexivity);
    (rewrite combine_decision, Hd; split; [reflexivity|]);
    unfold combineRiskAssessments;
    cbn [fd_riskScore fd_reasons riskScore reasons checkTransaction fallback_response];
    (split; [apply Z.max_l; exact Hs | reflexivity]).
Qed.

Lemma transaction_check_provider_down_witness :
  response_decision (snd (transaction_check default_limits (fun _ => None)
                            usd_60000 0 "a" "b"))
  = Some (dec_str (ic_decision (performInternalChecks default_limits usd_60000 0 "a"))).
Proof.
  apply (transaction_check_provider_down default_limits (fun _ => None) usd_60000 0 "a" "b").
  - split; [cbn; discriminate | split; [cbn; discriminate | cbn; discriminate]].
  - reflexivity.
Defined.

(** A request with an empty [transactionId] or [userId], or amount 0, is
    rejected with INVALID_REQUEST without a risk check; the provider still
    receives the connection-test requests. *)
Theorem transaction_check_invalid (cfg : Limits) (p : Provider) (t : OrcaTransaction)
  (now : Z) (r1 r2 : string)
  (Hinv : transactionId t = ""%string \/ userId t = ""%string \/ amount t = 0) :
  transaction_check cfg p t now r1 r2 = (fst (testConnection p), InvalidRequest) /\
  ~ In RiskCheck (fst (transaction_check cfg p t now r1 r2)).
Proof.
  assert (E : String.eqb (transactionId t) "" || String.eqb (userId t) ""
              || (amount t =? 0) = true).
  { destruct Hinv as [H|[H|H]]; rewrite H; cbn;
      rewrite ?orb_true_r; reflexivity. }
  assert (Heq : transaction_check cfg p t now r1 r2 = (fst (testConnection p), InvalidRequest)).
  { unfold transaction_check. destruct (testConnection p) as [calls ok].
    rewrite E. reflexivity. }
  split; [exact Heq|]. rewrite Heq. apply testConnection_no_risk_check.
Qed.

Lemma transaction_check_invalid_witness :
  transaction_check default_limits (fun _ => None)
    {| transactionId := ""; userId := "u"; amount := 5; currencyCode := "KES";
       provider := "hifi" |} 0 "a" "b"
  = ([TestTransaction; TestUser; TestRules], InvalidRequest).
Proof.
  exact (proj1 (transaction_check_invalid default_limits (fun _ => None)
                  {| transactionId := ""; userId := "u"; amount := 5;
                     currencyCode := "KES"; provider := "hifi" |} 0 "a" "b"
                  (or_introl eq_refl))).
Defined.

(** Whatever branch the handler takes, the data it returns has its risk
    level equal to [determineRiskLevel] of its risk score. *)
Definition response_level_consistent (r : CheckResponse) : Prop :=
  match r with
  | InvalidRequest => True
  | CheckSuccess (DataInternal ic) => ic_riskLevel ic = determineRiskLevel (ic_riskScore ic)
  | CheckSuccess (DataFinal fd) => fd_riskLevel fd = determineRiskLevel (fd_riskScore fd)
  end.

Theorem transaction_check_level_consistent (cfg : Limits) (p : Provider)
  (t : OrcaTransaction) (now : Z) (r1 r2 : string) :
  response_level_consistent (snd (transaction_check cfg p t now r1 r2)).
Proof.
  unfold transaction_check. destruct (testConnection p) as [calls ok].
  destruct (String.eqb (transactionId t) "" || String.eqb (userId t) ""
            || (amount t =? 0)); [exact I|].
  destruct (ic_decision (performInternalChecks cfg t now r1)) eqn:Hd;
    cbn [snd response_level_consistent];
    try (unfold combineRiskAssessments; cbn [fd_riskLevel fd_riskScore];
         apply inline_level_determineRiskLevel).
  revert Hd. unfold performInternalChecks.
  destruct (amount t >? singleTransactionLimit cfg);
  destruct (String.eqb (provider t) "voucher" && (amount t >? 10000));
  destruct (String.eqb (currencyCode t) "USD" && (amount t >? 2000));
  cbn; intros; first [reflexivity | discriminate].
Qed.


(** An amount above the single-transaction limit is never within limits,
    whatever the user's history. *)
Theorem checkTransactionLimits_over_single (cfg : Limits)
  (cache : string -> option (list CachedTx)) (today now : Z) (req : LimitsCheckRequest)
  (Hover : singleTransactionLimit cfg < lc_amount req) :
  withinLimits (checkTransactionLimits cfg cache today now req) = false /\
  lr_decision (checkTransactionLimits cfg cache today now req) = "BLOCK"%string.
Proof.
  unfold checkTransactionLimits. cbn [withinLimits lr_decision].
  assert (E : (lc_amount req <=? singleTransactionLimit cfg) = false)
    by (apply Z.leb_gt; exact Hover).
  rewrite E, andb_false_r. split; reflexivity.
Qed.

Lemma checkTransactionLimits_over_single_witness :
  withinLimits (checkTransactionLimits default_limits (fun _ => None) 0 0
                  {| lc_userId := "u"; lc_amount := 50001 |}) = false.
Proof.
  exact (proj1 (checkTransactionLimits_over_single default_limits (fun _ => None) 0 0
                  {| lc_userId := "u"; lc_amount := 50001 |} ltac:(cbn; lia))).
Defined.

(** Entries cached before midnight today play no part: two histories with
    the same entries from today on give the same answer. *)
Theorem checkTransactionLimits_today_only (cfg : Limits)
  (cache1 cache2 : string -> option (list CachedTx)) (today now : Z)
  (req : LimitsCheckRequest)
  (Hsame : filter (fun tx => today <=? tx_timestamp tx)
             (match cache1 (lc_userId req) with Some l => l | None => [] end)
           = filter (fun tx => today <=? tx_timestamp tx)
               (match cache2 (lc_userId req) with Some l => l | None => [] end)) :
  checkTransactionLimits cfg cache1 today now req
  = checkTransactionLimits cfg cache2 today now req.
Proof. unfold checkTransactionLimits. rewrite Hsame. reflexivity. Qed.

Lemma checkTransactionLimits_today_only_witness :
  checkTransactionLimits default_limits
    (fun _ => Some [{| tx_timestamp := 10; tx_amount := 90000 |}]) 100 200
    {| lc_userId := "u"; lc_amount := 20000 |}
  = checkTransactionLimits default_limits (fun _ => None) 100 200
      {| lc_userId := "u"; lc_amount := 20000 |}.
Proof. apply checkTransactionLimits_today_only. reflexivity. Defined.

(** Within limits is closed downwards in the amount: if an amount passes,
    every smaller amount passes against the same history. *)
Theorem checkTransactionLimits_smaller_amount (cfg : Limits)
  (cache : string -> option (list CachedTx)) (today now : Z) (u : string) (a a' : Z)
  (Hle : a' <= a)
  (Hok : withinLimits (checkTransactionLimits cfg cache today now
                         {| lc_userId := u; lc_amount := a |}) = true) :
  withinLimits (checkTransactionLimits cfg cache today now
                  {| lc_userId := u; lc_amount := a' |}) = true.
Proof.
  revert Hok. unfold checkTransactionLimits. cbn [withinLimits lc_userId lc_amount].
  rewrite !andb_true_iff, !Z.leb_le. intros [[H1 H2] H3].
  split; [split; [lia | exact H2] | lia].
Qed.

Lemma checkTransactionLimits_smaller_amount_witness :
  withinLimits (checkTransactionLimits default_limits (fun _ => None) 0 0
                  {| lc_userId := "u"; lc_amount := 100 |}) = true.
Proof.
  apply (checkTransactionLimits_smaller_amount default_limits (fun _ => None) 0 0
           "u" 50000 100); [lia | reflexivity].
Defined.

(** The cache starts as an empty [Map] and no code of the repository writes
    it ([updateTransactionCache] in [src/routes/post.ts] only logs).  On the
    empty cache nothing has been used and the check reduces to the two
    amount ceilings and a positive count limit. *)
Theorem checkTransactionLimits_empty_cache (cfg : Limits) (today now : Z)
  (req : LimitsCheckRequest) :
  let r := checkTransactionLimits cfg (fun _ => None) today now req in
  dailyUsed (limits r) = 0 /\ transactionCount (limits r) = 0 /\
  dailyRemaining (limits r) = dailyTransactionLimit cfg /\
  (withinLimits r = true <->
   lc_amount req <= dailyTransactionLimit cfg /\ 0 < hourlyTransactionCount cfg /\
   lc_amount req <= singleTransactionLimit cfg).
Proof.
  cbn zeta. unfold checkTransactionLimits. cbn.
  split; [reflexivity | split; [reflexivity | split; [lia |]]].
  rewrite !andb_true_iff, !Z.leb_le, Z.ltb_lt. tauto.
Qed.

Lemma lookup_spread_set_other (fs : list (string * jsval)) (k k' : string) (v : jsval)
  (Hne : k' <> k) : lookup k' (spread_set fs k v) = lookup k' fs.
Proof.
  apply String.eqb_neq in Hne.
  induction fs as [|[k0 v0] r IH]; cbn.
  - rewrite Hne. reflexivity.
  - destruct (String.eqb k k0) eqn:E; cbn.
    + apply String.eqb_eq in E. subst k0. rewrite Hne. reflexivity.
    + destruct (String.eqb k' k0); [reflexivity | exact IH].
Qed.

Lemma lookup_spread_set_same (fs : list (string * jsval)) (k : string) (v : jsval) :
  lookup k (spread_set fs k v) = v.
Proof.
  induction fs as [|[k0 v0] r IH]; cbn.
  - rewrite String.eqb_refl. reflexivity.
  - destruct (String.eqb k k0) eqn:E; cbn.
    + rewrite E. reflexivity.
    + rewrite E. exact IH.
Qed.

(** The report sent to Orca always has [type] "final_report", even when the
    caller's body sets its own [type]; every other field is sent as the
    caller gave it. *)
Theorem report_payload_type (reportData : list (string * jsval)) :
  get (report_payload reportData) "type" = Some (JStr "final_report") /\
  (forall k, k <> "type"%string ->
   get (report_payload reportData) k = Some (lookup k reportData)).
Proof.
  unfold report_payload. cbn [get]. split.
  - rewrite lookup_spread_set_same. reflexivity.
  - intros k Hk. rewrite lookup_spread_set_other by exact Hk. reflexivity.
Qed.

(** Unlike [checkTransaction], [reportTransaction] does not fail open: it
    throws, with a message starting "Orca reporting failed: ", exactly when
    the call is rejected or the body is null; otherwise it succeeds with a
    truthy [reportId] (the provider's, or report_<now>). *)
Theorem reportTransaction_outcome (reply : Reply) (now : Z) :
  match reportTransaction reply now with
  | Throws msg =>
      (exists m, reply = Rejected m \/ (reply = Resolved JNull \/ reply = Resolved JUndef))
      /\ exists rest, msg = String.append "Orca reporting failed: " rest
  | Returns r =>
      (exists d, reply = Resolved d /\ d <> JNull /\ d <> JUndef) /\
      rp_status r = "SUCCESS"%string /\ truthy (reportId r) = true
  end.
Proof.
  assert (Hjs : forall a b, truthy b = true -> truthy (js_or a b) = true).
  { intros a b Hb. unfold js_or. destruct (truthy a) eqn:Ha; assumption. }
  destruct reply as [m|d].
  - cbn. split; [exists m; left; reflexivity | eexists; reflexivity].
  - destruct d; unfold reportTransaction; cbn [get];
      try (split; [exists EmptyString; right; auto | eexists; reflexivity]);
      cbn [rp_status reportId];
      (split; [eexists; split; [reflexivity | split; discriminate] | split; [reflexivity|]]);
      apply Hjs; reflexivity.
Qed.

(** The page and limit [getRules] returns depend only on its parameters
    ([page || 1], [limit || 20]), never on the provider's answer, and are
    never 0; a failed call returns no rules and total 0. *)
Theorem getRules_paging (params : RulesParams) (resp : option jsval) :
  let r := getRules params resp in
  rr_page r = num_or (rq_page params) 1 /\ rr_limit r = num_or (rq_limit params) 20 /\
  rr_page r <> 0 /\ rr_limit r <> 0 /\
  (resp = None -> rules r = JArr [] /\ total r = JNum 0).
Proof.
  assert (Hnz : forall x d, d <> 0 -> num_or x d <> 0).
  { intros [z|] d Hd; cbn; [|exact Hd].
    destruct (z =? 0) eqn:E; [exact Hd|]. apply Z.eqb_neq in E. exact E. }
  assert (Hpl : rr_page (getRules params resp) = num_or (rq_page params) 1 /\
                rr_limit (getRules params resp) = num_or (rq_limit params) 20).
  { unfold getRules. destruct resp as [d|]; [|split; reflexivity].
    destruct (get d "rules"), (get d "total"); split; reflexivity. }
  cbn zeta. destruct Hpl as [Hp Hl].
  split; [exact Hp|]. split; [exact Hl|].
  split; [rewrite Hp; apply Hnz; discriminate|].
  split; [rewrite Hl; apply Hnz; discriminate|].
  intros ->. split; reflexivity.
Qed.
